(** * Role-binding handlers of the Kubernetes HTTP API

  A shallow embedding of [api/http/handler/kubernetes/role_bindings.go]:
  the two handlers [getAllKubernetesRoleBindings] and [deleteRoleBindings],
  the collaborators they call, and the properties of the listing and the
  bulk-deletion workflow.

  Go's [(T, error)] results are pairs [T * option error]; [nil] is [None].
  A handler is a computation over a [World] made of the cluster, the
  [http.ResponseWriter] and a trace of the collaborator calls it made. *)

From Stdlib Require Import List String ZArith Bool Lia Permutation.
Import ListNotations.
Open Scope string_scope.
Open Scope list_scope.
Open Scope Z_scope.

Set Implicit Arguments.

(** ** Errors *)

(** Go's [error] interface, as far as the handlers see it: a plain error
  made by [errors.New], or a [*httperror.HandlerError] used as an [error]
  (status code, message, wrapped cause). *)
#[warnings="-register-all"]
Inductive error : Type :=
| errorString (s : string)
| handlerError (code : Z) (msg : string) (cause : option error).

Module httperror.

(** [httperror.HandlerError]: the value a handler returns on failure. *)
Record HandlerError : Type := NewError
  { StatusCode : Z;
    Message : string;
    Err : option error }.

(** A [*HandlerError] passed where an [error] is expected. *)
Definition asError (h : HandlerError) : error :=
  handlerError (StatusCode h) (Message h) (Err h).

(** Modelled from the spec: the constructors of package [httperror] are
    not part of this file of the repository. [BadRequest] is the
    client-side input error (status 400 of the route annotations),
    [InternalServerError] the server-side one (status 500); both keep the
    message and the cause they are given. *)
Definition BadRequest (message : string) (err : option error) : HandlerError :=
  NewError 400 message err.

Definition InternalServerError (message : string) (err : option error) : HandlerError :=
  NewError 500 message err.

(** Status classes of an error response. *)
Definition clientSide (h : HandlerError) : bool :=
  (400 <=? StatusCode h) && (StatusCode h <? 500).

Definition serverSide (h : HandlerError) : bool :=
  (500 <=? StatusCode h) && (StatusCode h <? 600).

End httperror.
Import httperror.

(** ** Data model *)

(** Modelled from the spec: [models.K8sRoleBinding] is declared outside this
  file. A role binding has a name, unique within its namespace, a
  namespace, and attributes this code never interprets. *)
Record K8sRoleBinding : Type := mkRoleBinding
  { Name : string;
    Namespace : string;
    Attributes : string }.

(** Identity of a binding: (namespace, name). *)
Definition identity (b : K8sRoleBinding) : string * string :=
  (Namespace b, Name b).

(** Modelled from the spec: [models.K8sRoleBindingDeleteRequests] is declared
  outside this file. The batch maps a namespace to the ordered sequence of
  binding names to delete in it; the namespaces are kept in the order of
  the caller's payload. *)
Definition K8sRoleBindingDeleteRequests : Type := list (string * list string).

(** The (namespace, name) pairs of a batch, in payload order. *)
Definition items (reqs : K8sRoleBindingDeleteRequests) : list (string * string) :=
  flat_map (fun entry => map (pair (fst entry)) (snd entry)) reqs.

(** What the handlers read of an [*http.Request]: the environment
  identifier of the route and the body. *)
Record Request : Type := mkRequest
  { endpointID : Z;
    body : string }.

(** ** The cluster *)

(** A request received by the cluster's API. *)
Inductive ApiCall : Type :=
| ListCall (namespace : string)
| DeleteCall (namespace name : string).

(** The cluster: the role bindings it holds and the requests it has
  received, oldest first. *)
Record Cluster : Type := mkCluster
  { resources : list K8sRoleBinding;
    received : list ApiCall }.

(** [*cli.KubeClient], by the two methods the handlers call. *)
Record KubeClient : Type := mkKubeClient
  { GetRoleBindings : string -> Cluster -> (list K8sRoleBinding * option error) * Cluster;
    DeleteRoleBindings : K8sRoleBindingDeleteRequests -> Cluster -> option error * Cluster }.

(** ** The world of a handler *)

(** What has been written to the [http.ResponseWriter]. *)
Inductive Payload : Type :=
| NoContent
| JSONContent (data : list K8sRoleBinding).

Record ResponseWriter : Type := mkWriter
  { status : option Z;
    content : Payload }.

Definition freshWriter : ResponseWriter := mkWriter None NoContent.

(** A call made by a handler to one of its collaborators. *)
Inductive Call : Type :=
| CallDecodeAndValidate (r : Request)
| CallPrepareKubeClient (r : Request)
| CallGetProxyKubeClient (r : Request)
| CallGetRoleBindings (namespace : string)
| CallDeleteRoleBindings (payload : K8sRoleBindingDeleteRequests)
| CallLogError (err : error) (context msg : string)
| CallResponseJSON (data : list K8sRoleBinding)
| CallResponseEmpty.

Record World : Type := mkWorld
  { cluster : Cluster;
    writer : ResponseWriter;
    trace : list Call }.

(** ** The handler monad: state passing over [World] *)

Definition M (A : Type) : Type := World -> A * World.

Definition ret {A} (a : A) : M A := fun w => (a, w).

Definition bind {A B} (m : M A) (k : A -> M B) : M B :=
  fun w => let (a, w') := m w in k a w'.

Declare Scope handler_scope.
Delimit Scope handler_scope with handler.
Notation "x <- m ;; k" := (bind m (fun x => k))
  (at level 61, m at next level, right associativity) : handler_scope.
Notation "' pat <- m ;; k" := (bind m (fun x => match x with pat => k end))
  (at level 61, pat pattern, m at next level, right associativity) : handler_scope.
Notation "m ;; k" := (bind m (fun _ => k))
  (at level 61, right associativity) : handler_scope.
Open Scope handler_scope.

(** Record a collaborator call at the end of the trace. *)
Definition note (c : Call) : M unit :=
  fun w => (tt, mkWorld (cluster w) (writer w) (trace w ++ [c])).

(** Run a client method against the cluster. *)
Definition onCluster {A} (f : Cluster -> A * Cluster) : M A :=
  fun w => let (a, c') := f (cluster w) in (a, mkWorld c' (writer w) (trace w)).

(** Replace the response writer's state. *)
Definition write (rw : ResponseWriter) : M unit :=
  fun w => (tt, mkWorld (cluster w) rw (trace w)).

(** Run a function of the response writer. *)
Definition onWriter {A} (f : ResponseWriter -> A * ResponseWriter) : M A :=
  fun w => let (a, rw) := f (writer w) in (a, mkWorld (cluster w) rw (trace w)).

(** [log.Error().Err(err).Str("context", context).Msg(msg)] *)
Definition logError (err : error) (context msg : string) : M unit :=
  note (CallLogError err context msg).

Module response.

Section Writer.

(** [response.JSON(rw, data)] is defined outside this file: what it writes
    to the response writer and the [*HandlerError] it returns are taken as
    they come. *)
Variable JSON_ :
  list K8sRoleBinding -> ResponseWriter -> option HandlerError * ResponseWriter.

Definition JSON (data : list K8sRoleBinding) : M (option HandlerError) :=
  note (CallResponseJSON data) ;;
  onWriter (JSON_ data).

End Writer.

(** Modelled from the spec: package [response] is not part of this file
    of the repository. [Empty] is the empty confirmation, a success
    indicator (status 204 of the route annotation) with no body. *)
Definition Empty : M (option HandlerError) :=
  note CallResponseEmpty ;;
  write (mkWriter (Some 204) NoContent) ;;
  ret None.

End response.

(** ** The handlers *)

(** [*Handler], by the two client providers the handlers call; both are
  methods defined outside this file. *)
Record Handler : Type := mkHandler
  { prepareKubeClient_ : Request -> KubeClient * option HandlerError;
    getProxyKubeClient_ : Request -> KubeClient * option HandlerError }.

Definition prepareKubeClient (handler : Handler) (r : Request)
  : M (KubeClient * option HandlerError) :=
  note (CallPrepareKubeClient r) ;;
  ret (prepareKubeClient_ handler r).

Definition getProxyKubeClient (h : Handler) (r : Request)
  : M (KubeClient * option HandlerError) :=
  note (CallGetProxyKubeClient r) ;;
  ret (getProxyKubeClient_ h r).

Section Handlers.

(** [response.JSON], defined outside this file. *)
Variable JSON_ :
  list K8sRoleBinding -> ResponseWriter -> option HandlerError * ResponseWriter.

(** [request.DecodeAndValidateJSONPayload(r, &payload)]: decodes the body
  into the payload and validates it; defined outside this file. *)
Variable DecodeAndValidateJSONPayload_ :
  Request -> K8sRoleBindingDeleteRequests * option error.

Definition DecodeAndValidateJSONPayload (r : Request)
  : M (K8sRoleBindingDeleteRequests * option error) :=
  note (CallDecodeAndValidate r) ;;
  ret (DecodeAndValidateJSONPayload_ r).

Definition getAllKubernetesRoleBindings (handler : Handler) (r : Request)
  : M (option HandlerError) :=
  '(cli, httpErr) <- prepareKubeClient handler r ;;
  match httpErr with
  | Some e =>
      logError (asError e) "GetAllKubernetesRoleBindings" "Unable to prepare kube client" ;;
      ret (Some (InternalServerError "unable to prepare kube client. Error: "
                   (Some (asError e))))
  | None =>
      note (CallGetRoleBindings "") ;;
      '(rolebindings, err) <- onCluster (GetRoleBindings cli "") ;;
      match err with
      | Some e =>
          logError e "GetAllKubernetesRoleBindings" "Unable to fetch rolebindings" ;;
          ret (Some (InternalServerError "unable to fetch rolebindings. Error: " (Some e)))
      | None => response.JSON JSON_ rolebindings
      end
  end.

Definition deleteRoleBindings (h : Handler) (r : Request)
  : M (option HandlerError) :=
  '(payload, err) <- DecodeAndValidateJSONPayload r ;;
  match err with
  | Some e => ret (Some (BadRequest "Invalid request payload" (Some e)))
  | None =>
      '(cli, handlerErr) <- getProxyKubeClient h r ;;
      match handlerErr with
      | Some e => ret (Some e)
      | None =>
          note (CallDeleteRoleBindings payload) ;;
          err <- onCluster (DeleteRoleBindings cli payload) ;;
          match err with
          | Some e => ret (Some (InternalServerError "Failed to delete role bindings" (Some e)))
          | None => response.Empty
          end
      end
  end.

End Handlers.

(** ** The cluster client of the spec *)

(** Modelled from the spec: the cluster client ([cli.KubeClient] and its
    methods [GetRoleBindings] and [DeleteRoleBindings]) is not part of this
    file of the repository. A client is a capability scoped to one caller:
    [visible] is what the caller is authorized to see, [refusal] the error,
    if any, the cluster reports for deleting one (namespace, name) from the
    bindings it holds (the policy for an absent name is the client's), and
    [fetchFailure] a retrieval error of the listing. *)
Record Access : Type := mkAccess
  { visible : K8sRoleBinding -> bool;
    refusal : list K8sRoleBinding -> string -> string -> option error;
    fetchFailure : list K8sRoleBinding -> option error }.

(** Is the binding the one named (namespace, name)? *)
Definition named (ns name : string) (b : K8sRoleBinding) : bool :=
  (Namespace b =? ns)%string && (Name b =? name)%string.

(** The bindings left once (namespace, name) is removed. *)
Definition removeBinding (ns name : string) (rs : list K8sRoleBinding)
  : list K8sRoleBinding :=
  filter (fun b => negb (named ns name b)) rs.

(** The bindings left once every item of a list is removed, in order. *)
Definition removeAll (its : list (string * string)) (rs : list K8sRoleBinding)
  : list K8sRoleBinding :=
  fold_left (fun acc it => removeBinding (fst it) (snd it) acc) its rs.

(** The cluster has received one more request. *)
Definition receive (call : ApiCall) (c : Cluster) : Cluster :=
  mkCluster (resources c) (received c ++ [call]).

(** Is the binding within the namespace filter? The empty filter is every
    namespace. *)
Definition inFilter (namespaceFilter : string) (b : K8sRoleBinding) : bool :=
  (namespaceFilter =? "")%string || (Namespace b =? namespaceFilter)%string.

(** The bindings a client sees within a namespace filter, in the cluster's
    order. *)
Definition visibleIn (a : Access) (namespaceFilter : string)
  (rs : list K8sRoleBinding) : list K8sRoleBinding :=
  filter (fun b => visible a b && inFilter namespaceFilter b) rs.

(** Modelled from the spec: [listBindings(client, namespaceFilter)] of the
    BindingReader. One list request; every binding the client is authorized
    to see within the filter, or the retrieval error and no binding. *)
Definition listBindings (a : Access) (namespaceFilter : string) (c : Cluster)
  : (list K8sRoleBinding * option error) * Cluster :=
  match fetchFailure a (resources c) with
  | Some e => (([], Some e), receive (ListCall namespaceFilter) c)
  | None => ((visibleIn a namespaceFilter (resources c), None),
             receive (ListCall namespaceFilter) c)
  end.

(** Modelled from the spec: one delete of one name against one namespace.
    The request reaches the cluster; unless the cluster reports an error the
    binding is gone afterwards. *)
Definition deleteOne (a : Access) (ns name : string) (c : Cluster)
  : option error * Cluster :=
  match refusal a (resources c) ns name with
  | Some e => (Some e, receive (DeleteCall ns name) c)
  | None => (None, mkCluster (removeBinding ns name (resources c))
                     (received c ++ [DeleteCall ns name]))
  end.

(** The names of one namespace, in sequence; the first failure stops. *)
Fixpoint deleteNames (a : Access) (ns : string) (names : list string) (c : Cluster)
  : option error * Cluster :=
  match names with
  | [] => (None, c)
  | name :: rest =>
      match deleteOne a ns name c with
      | (Some e, c') => (Some e, c')
      | (None, c') => deleteNames a ns rest c'
      end
  end.

(** Modelled from the spec: [deleteBatch(client, batch)] of the
    BindingBulkDeleter. The namespaces in payload order, the names of each
    in sequence, one delete per name; the first failure aborts the batch and
    is the operation's error. *)
Fixpoint deleteBatch (a : Access) (batch : K8sRoleBindingDeleteRequests) (c : Cluster)
  : option error * Cluster :=
  match batch with
  | [] => (None, c)
  | (ns, names) :: rest =>
      match deleteNames a ns names c with
      | (Some e, c') => (Some e, c')
      | (None, c') => deleteBatch a rest c'
      end
  end.

(** The deletes of a list of (namespace, name) items, in sequence; the first
    failure stops. *)
Fixpoint deleteItems (a : Access) (its : list (string * string)) (c : Cluster)
  : option error * Cluster :=
  match its with
  | [] => (None, c)
  | (ns, name) :: rest =>
      match deleteOne a ns name c with
      | (Some e, c') => (Some e, c')
      | (None, c') => deleteItems a rest c'
      end
  end.

(** The client of the spec, as the handlers use it. *)
Definition specClient (a : Access) : KubeClient :=
  mkKubeClient (listBindings a) (deleteBatch a).

(** Does the cluster accept the delete of every item, one after the other? *)
Fixpoint accepted (a : Access) (its : list (string * string))
  (rs : list K8sRoleBinding) : bool :=
  match its with
  | [] => true
  | (ns, name) :: rest =>
      match refusal a rs ns name with
      | Some _ => false
      | None => accepted a rest (removeBinding ns name rs)
      end
  end.

(** The delete requests of a list of items. *)
Definition deleteCalls (its : list (string * string)) : list ApiCall :=
  map (fun it => DeleteCall (fst it) (snd it)) its.

(** The namespaces of a list of bindings, each once. *)
Definition namespacesOf (rs : list K8sRoleBinding) : list string :=
  nodup string_dec (map Namespace rs).

(** A cluster holds at most one binding per (namespace, name), and every
    binding is in a namespace. *)
Definition wellFormed (rs : list K8sRoleBinding) : Prop :=
  NoDup (map identity rs) /\ Forall (fun b => Namespace b <> "") rs.

(** ** Instances used in the examples *)

(** A client that reports a missing binding as an error. *)
Definition strictAccess : Access :=
  mkAccess (fun _ => true)
    (fun rs ns name =>
       if existsb (named ns name) rs then None
       else Some (errorString "rolebindings not found"))
    (fun _ => None).

(** A client that treats the delete of a missing binding as a success. *)
Definition lenientAccess : Access :=
  mkAccess (fun _ => true) (fun _ _ _ => None) (fun _ => None).

(** A client whose listing always fails. *)
Definition brokenAccess : Access :=
  mkAccess (fun _ => true) (fun _ _ _ => None)
    (fun _ => Some (errorString "connection refused")).

(** The [nil] client returned next to an error. *)
Definition nilClient : KubeClient :=
  mkKubeClient
    (fun _ c => (([], Some (errorString "nil client")), c))
    (fun _ c => (Some (errorString "nil client"), c)).

(** A handler whose providers always return the given client. *)
Definition handlerWith (cli : KubeClient) : Handler :=
  mkHandler (fun _ => (cli, None)) (fun _ => (cli, None)).

(** A handler whose providers always fail with the given error. *)
Definition handlerWithout (e : HandlerError) : Handler :=
  mkHandler (fun _ => (nilClient, Some e)) (fun _ => (nilClient, Some e)).

(** A decoder that accepts every request as the given batch. *)
Definition decodesTo (batch : K8sRoleBindingDeleteRequests)
  : Request -> K8sRoleBindingDeleteRequests * option error :=
  fun _ => (batch, None).

(** A decoder that rejects every request. *)
Definition rejects (e : error)
  : Request -> K8sRoleBindingDeleteRequests * option error :=
  fun _ => ([], Some e).

Definition teamCluster : Cluster :=
  mkCluster
    [ mkRoleBinding "view-binding" "team-a" "view";
      mkRoleBinding "admin-binding" "team-b" "admin";
      mkRoleBinding "ops-binding" "team-b" "ops" ]
    [].

Definition teamBatch : K8sRoleBindingDeleteRequests :=
  [ ("team-a", ["view-binding"]);
    ("team-b", ["admin-binding"; "edit-binding"; "ops-binding"]) ].

Definition teamRequest : Request :=
  mkRequest 1 "team-a: view-binding; team-b: admin-binding, edit-binding, ops-binding".

Definition teamWorld : World := mkWorld teamCluster freshWriter [].

Definition forbidden : HandlerError :=
  NewError 403 "permission denied to access environment" None.

(** A [response.JSON] that succeeds: status 200 and the data as the body. *)
Definition writesJSON (data : list K8sRoleBinding) (rw : ResponseWriter)
  : option HandlerError * ResponseWriter :=
  (None, mkWriter (Some 200) (JSONContent data)).

(** A [response.JSON] whose encoding fails once the header is out. *)
Definition failsJSON (data : list K8sRoleBinding) (rw : ResponseWriter)
  : option HandlerError * ResponseWriter :=
  (Some (InternalServerError "Unable to write JSON response"
           (Some (errorString "json: unsupported value"))),
   mkWriter (Some 200) NoContent).

(** A client whose listing breaks off: some bindings and an error. *)
Definition flakyClient : KubeClient :=
  mkKubeClient
    (fun _ c => ((firstn 1 (resources c), Some (errorString "unexpected EOF")), c))
    (fun _ c => (Some (errorString "unexpected EOF"), c)).

Definition notFound : error := errorString "rolebindings not found".

Definition malformed : error := errorString "missing deletion request list in payload".

(** ** Reading a trace *)

(** Is the call a log entry? *)
Definition isLog (c : Call) : bool :=
  match c with
  | CallLogError _ _ _ => true
  | _ => false
  end.

(** The log entries of a trace, oldest first. *)
Definition logged (tr : list Call) : list Call := filter isLog tr.

(** A handler whose two providers differ: the one of the list handler
    returns the first client, the one of the bulk-delete handler fails. *)
Definition listOnlyHandler (cli : KubeClient) (e : HandlerError) : Handler :=
  mkHandler (fun _ => (cli, None)) (fun _ => (nilClient, Some e)).

(** A handler whose two providers differ the other way round. *)
Definition deleteOnlyHandler (cli : KubeClient) (e : HandlerError) : Handler :=
  mkHandler (fun _ => (nilClient, Some e)) (fun _ => (cli, None)).

(** * Properties *)

(** ** Running a handler *)

Ltac run_handler :=
  unfold deleteRoleBindings, getAllKubernetesRoleBindings,
    DecodeAndValidateJSONPayload, getProxyKubeClient, prepareKubeClient,
    response.JSON, response.Empty, logError, bind, ret, note, onCluster, onWriter, write;
  cbn [fst snd cluster writer trace].

Ltac use_eq H := rewrite H; cbn [fst snd cluster writer trace].

Ltac tidy_trace := repeat rewrite <- app_assoc; cbn [app].

Section HandlerProperties.

Variable writeJSON :
  list K8sRoleBinding -> ResponseWriter -> option HandlerError * ResponseWriter.
Variable decode : Request -> K8sRoleBindingDeleteRequests * option error.
Variable h : Handler.
Variable r : Request.
Variable w : World.

(** C2. A bulk-delete request whose payload fails decoding or validation is
    answered with the bad-request error (status 400): the only collaborator
    called is the decoder, no client is obtained, the cluster and the
    response writer are untouched, and the error is a client-side one, not
    a server-side one. *)
Theorem invalid_payload_rejected_before_cluster :
  forall p e,
    decode r = (p, Some e) ->
    deleteRoleBindings decode h r w =
      (Some (BadRequest "Invalid request payload" (Some e)),
       mkWorld (cluster w) (writer w) (trace w ++ [CallDecodeAndValidate r]))
    /\ clientSide (BadRequest "Invalid request payload" (Some e)) = true
    /\ serverSide (BadRequest "Invalid request payload" (Some e)) = false.
Proof.
  intros p e Hdec. split; [|split; reflexivity].
  run_handler. use_eq Hdec. reflexivity.
Qed.


(** C6. When the retrieval of the role bindings fails after a client was
    obtained, the list handler answers with an internal server error (status
    500) wrapping the retrieval error and writes nothing, whatever bindings
    the client returned next to the error. In every run of the list
    handler, when the provider or the retrieval fails an error is returned
    and the response writer is untouched; otherwise the whole list of the
    client, and nothing else, is handed to [response.JSON], whose result is
    the handler's. *)
Theorem fetch_failure_is_atomic :
  forall cli partial e c',
    prepareKubeClient_ h r = (cli, None) ->
    GetRoleBindings cli "" (cluster w) = ((partial, Some e), c') ->
    getAllKubernetesRoleBindings writeJSON h r w =
      (Some (InternalServerError "unable to fetch rolebindings. Error: " (Some e)),
       mkWorld c' (writer w)
         (trace w ++ [CallPrepareKubeClient r; CallGetRoleBindings "";
                      CallLogError e "GetAllKubernetesRoleBindings"
                        "Unable to fetch rolebindings"]))
    /\ serverSide (InternalServerError "unable to fetch rolebindings. Error: " (Some e)) = true
    /\ (forall h' r' w',
          match snd (prepareKubeClient_ h' r'),
                snd (fst (GetRoleBindings (fst (prepareKubeClient_ h' r')) ""
                            (cluster w')))
          with
          | None, None =>
              (fst (getAllKubernetesRoleBindings writeJSON h' r' w'),
               writer (snd (getAllKubernetesRoleBindings writeJSON h' r' w')))
              = writeJSON
                  (fst (fst (GetRoleBindings (fst (prepareKubeClient_ h' r')) ""
                               (cluster w'))))
                  (writer w')
          | _, _ =>
              fst (getAllKubernetesRoleBindings writeJSON h' r' w') <> None
              /\ writer (snd (getAllKubernetesRoleBindings writeJSON h' r' w')) = writer w'
          end).
Proof.
  intros cli partial e c' Hprep Hget. split; [|split].
  - run_handler. use_eq Hprep. use_eq Hget. tidy_trace. reflexivity.
  - reflexivity.
  - intros h' r' w'. run_handler.
    destruct (prepareKubeClient_ h' r') as [cli' [e'|]]; cbn [fst snd cluster writer trace].
    + destruct (snd (fst (GetRoleBindings cli' "" (cluster w')))); split;
        [discriminate|reflexivity|discriminate|reflexivity].
    + destruct (GetRoleBindings cli' "" (cluster w')) as [[bs [e'|]] c''];
        cbn [fst snd cluster writer trace].
      * split; [discriminate|reflexivity].
      * destruct (writeJSON bs (writer w')) as [res rw]. reflexivity.
Qed.

(** C8. The two handlers report a failure to obtain the client differently.
    The list handler makes a new internal server error (status 500) whose
    cause is the provider's error; the bulk-delete handler returns the
    provider's error itself, so its status code is the provider's: when the
    provider did not choose 500, the response is not a 500. *)
Theorem client_failure_reported_differently :
  forall p cli1 e1 cli2 e2,
    prepareKubeClient_ h r = (cli1, Some e1) ->
    decode r = (p, None) ->
    getProxyKubeClient_ h r = (cli2, Some e2) ->
    fst (getAllKubernetesRoleBindings writeJSON h r w)
    = Some (InternalServerError "unable to prepare kube client. Error: " (Some (asError e1)))
    /\ StatusCode (InternalServerError "unable to prepare kube client. Error: "
                     (Some (asError e1))) = 500
    /\ fst (deleteRoleBindings decode h r w) = Some e2
    /\ (StatusCode e2 <> 500 ->
        forall he, fst (deleteRoleBindings decode h r w) = Some he -> StatusCode he <> 500).
Proof.
  intros p cli1 e1 cli2 e2 Hprep Hdec Hproxy.
  assert (Hdel : fst (deleteRoleBindings decode h r w) = Some e2).
  { run_handler. use_eq Hdec. use_eq Hproxy. reflexivity. }
  repeat split.
  - run_handler. use_eq Hprep. reflexivity.
  - exact Hdel.
  - intros Hcode he Hhe. rewrite Hdel in Hhe. congruence.
Qed.

(** C9. Whatever error the client's [DeleteRoleBindings] returns, the
    bulk-delete handler answers with one internal server error (status 500)
    that wraps it: never a 404 for a missing binding nor a 403 for a denied
    one. *)
Theorem delete_error_always_internal :
  forall p cli e c',
    decode r = (p, None) ->
    getProxyKubeClient_ h r = (cli, None) ->
    DeleteRoleBindings cli p (cluster w) = (Some e, c') ->
    deleteRoleBindings decode h r w =
      (Some (InternalServerError "Failed to delete role bindings" (Some e)),
       mkWorld c' (writer w)
         (trace w ++ [CallDecodeAndValidate r; CallGetProxyKubeClient r;
                      CallDeleteRoleBindings p]))
    /\ StatusCode (InternalServerError "Failed to delete role bindings" (Some e)) = 500
    /\ StatusCode (InternalServerError "Failed to delete role bindings" (Some e)) <> 404
    /\ StatusCode (InternalServerError "Failed to delete role bindings" (Some e)) <> 403.
Proof.
  intros p cli e c' Hdec Hproxy Hdel. split; [|cbn; repeat split; discriminate].
  run_handler. use_eq Hdec. use_eq Hproxy. use_eq Hdel. tidy_trace. reflexivity.
Qed.

(** C10. For an accepted request the handler calls the client's
    [DeleteRoleBindings] once, with the batch exactly as the decoder
    produced it: the cluster afterwards is the one that call leaves, and the
    calls of the handler are the decoding, the client provider, that one
    delete call, and the empty response when the delete reports no error. *)
Theorem decoded_batch_passed_unchanged :
  forall p cli,
    decode r = (p, None) ->
    getProxyKubeClient_ h r = (cli, None) ->
    cluster (snd (deleteRoleBindings decode h r w))
    = snd (DeleteRoleBindings cli p (cluster w))
    /\ trace (snd (deleteRoleBindings decode h r w))
       = trace w ++ [CallDecodeAndValidate r; CallGetProxyKubeClient r;
                     CallDeleteRoleBindings p]
                 ++ match fst (DeleteRoleBindings cli p (cluster w)) with
                    | Some _ => []
                    | None => [CallResponseEmpty]
                    end.
Proof.
  intros p cli Hdec Hproxy.
  run_handler. use_eq Hdec. use_eq Hproxy.
  destruct (DeleteRoleBindings cli p (cluster w)) as [[e|] c'];
    cbn [fst snd cluster writer trace]; tidy_trace; split; reflexivity.
Qed.

End HandlerProperties.

(** ** The bulk deleter of the spec *)

Section BulkDeleter.

Variable a : Access.

Lemma deleteNames_deleteItems (ns : string) (names : list string) (c : Cluster) :
  deleteNames a ns names c = deleteItems a (map (pair ns) names) c.
Proof.
  revert c. induction names as [|name rest IH]; intros c; cbn; [reflexivity|].
  destruct (deleteOne a ns name c) as [[e|] c']; [reflexivity|apply IH].
Qed.

Lemma deleteItems_app (l1 l2 : list (string * string)) (c : Cluster) :
  deleteItems a (l1 ++ l2) c =
    match deleteItems a l1 c with
    | (Some e, c') => (Some e, c')
    | (None, c') => deleteItems a l2 c'
    end.
Proof.
  revert c. induction l1 as [|[ns name] rest IH]; intros c; cbn.
  - reflexivity.
  - destruct (deleteOne a ns name c) as [[e|] c']; [reflexivity|apply IH].
Qed.

(** The nested loops of the batch are the sequence of its items. *)
Lemma deleteBatch_deleteItems (batch : K8sRoleBindingDeleteRequests) (c : Cluster) :
  deleteBatch a batch c = deleteItems a (items batch) c.
Proof.
  revert c. induction batch as [|[ns names] rest IH]; intros c; cbn.
  - reflexivity.
  - rewrite deleteItems_app, <- deleteNames_deleteItems.
    destruct (deleteNames a ns names c) as [[e|] c']; [reflexivity|apply IH].
Qed.

Lemma deleteCalls_app (l1 l2 : list (string * string)) :
  deleteCalls (l1 ++ l2) = deleteCalls l1 ++ deleteCalls l2.
Proof. apply map_app. Qed.

(** Accepted items are all deleted, each by one request. *)
Lemma deleteItems_accepted (its : list (string * string)) (c : Cluster) :
  accepted a its (resources c) = true ->
  deleteItems a its c =
    (None, mkCluster (removeAll its (resources c)) (received c ++ deleteCalls its)).
Proof.
  revert c. induction its as [|[ns name] rest IH]; intros c Hacc; cbn in *.
  - rewrite app_nil_r. destruct c; reflexivity.
  - unfold deleteOne. destruct (refusal a (resources c) ns name); [discriminate|].
    rewrite IH by exact Hacc. cbn. rewrite <- app_assoc. reflexivity.
Qed.

(** The first refused item stops the sequence. *)
Lemma deleteItems_first_failure
  (pre post : list (string * string)) (ns name : string) (e : error) (c : Cluster) :
  accepted a pre (resources c) = true ->
  refusal a (removeAll pre (resources c)) ns name = Some e ->
  deleteItems a (pre ++ (ns, name) :: post) c =
    (Some e, mkCluster (removeAll pre (resources c))
               (received c ++ deleteCalls (pre ++ [(ns, name)]))).
Proof.
  intros Hacc Href. rewrite deleteItems_app, deleteItems_accepted by exact Hacc.
  cbn. unfold deleteOne. cbn. rewrite Href.
  unfold receive. cbn. rewrite deleteCalls_app, app_assoc. reflexivity.
Qed.

End BulkDeleter.

(** What [removeAll] leaves: the bindings named by none of the items. *)
Lemma removeAll_filter (its : list (string * string)) (rs : list K8sRoleBinding) :
  removeAll its rs =
    filter (fun b => negb (existsb (fun it => named (fst it) (snd it) b) its)) rs.
Proof.
  unfold removeAll. revert rs.
  induction its as [|[ns name] rest IH]; intros rs; cbn.
  - symmetry. apply forallb_filter_id. apply forallb_forall. reflexivity.
  - rewrite IH. unfold removeBinding.
    induction rs as [|b rs IHrs]; cbn; [reflexivity|].
    destruct (named ns name b); cbn; [exact IHrs|].
    destruct (existsb _ rest); cbn; [exact IHrs|]. f_equal. exact IHrs.
Qed.

Lemma removeAll_In (its : list (string * string)) (rs : list K8sRoleBinding)
  (b : K8sRoleBinding) :
  In b (removeAll its rs) <->
  In b rs /\ forall it, In it its -> named (fst it) (snd it) b = false.
Proof.
  rewrite removeAll_filter, filter_In, negb_true_iff.
  split; intros [Hin Hex]; split; try exact Hin.
  - intros it Hit. destruct (named (fst it) (snd it) b) eqn:E; [|reflexivity].
    rewrite <- Hex. symmetry. apply existsb_exists. exists it. auto.
  - destruct (existsb _ its) eqn:E; [|reflexivity].
    apply existsb_exists in E. destruct E as [it [Hit Hn]].
    rewrite (Hex it Hit) in Hn. discriminate.
Qed.

Section BulkDelete.

Variable decode : Request -> K8sRoleBindingDeleteRequests * option error.
Variable a : Access.
Variable h : Handler.
Variable r : Request.
Variable w : World.

(** C1. The first failing delete aborts the batch. When the items before
    (namespace, name) in payload order are all deleted and the delete of
    (namespace, name) fails with [e], the cluster has received the delete
    requests of those items and of the failing one and no other; the
    bindings it holds are the initial ones less those already deleted (none
    of them is restored and none named by a later item only is removed);
    the handler returns one error whose cause is [e], and writes no
    response of its own. *)
Theorem first_delete_failure_aborts_batch :
  forall batch pre ns name post e,
    decode r = (batch, None) ->
    getProxyKubeClient_ h r = (specClient a, None) ->
    items batch = pre ++ (ns, name) :: post ->
    accepted a pre (resources (cluster w)) = true ->
    refusal a (removeAll pre (resources (cluster w))) ns name = Some e ->
    deleteBatch a batch (cluster w)
    = (Some e, mkCluster (removeAll pre (resources (cluster w)))
                 (received (cluster w) ++ deleteCalls (pre ++ [(ns, name)])))
    /\ deleteRoleBindings decode h r w
       = (Some (InternalServerError "Failed to delete role bindings" (Some e)),
          mkWorld
            (mkCluster (removeAll pre (resources (cluster w)))
               (received (cluster w) ++ deleteCalls (pre ++ [(ns, name)])))
            (writer w)
            (trace w ++ [CallDecodeAndValidate r; CallGetProxyKubeClient r;
                         CallDeleteRoleBindings batch]))
    /\ (forall b it, In it pre -> named (fst it) (snd it) b = true ->
                     ~ In b (removeAll pre (resources (cluster w))))
    /\ (forall b, In b (resources (cluster w)) ->
                  (forall it, In it pre -> named (fst it) (snd it) b = false) ->
                  In b (removeAll pre (resources (cluster w)))).
Proof.
  intros batch pre ns name post e Hdec Hproxy Hitems Hacc Href.
  assert (Hbatch : deleteBatch a batch (cluster w)
                   = (Some e, mkCluster (removeAll pre (resources (cluster w)))
                                (received (cluster w) ++ deleteCalls (pre ++ [(ns, name)])))).
  { rewrite deleteBatch_deleteItems, Hitems.
    apply deleteItems_first_failure; assumption. }
  split; [exact Hbatch|]. split; [|split].
  - run_handler. use_eq Hdec. use_eq Hproxy.
    cbn [specClient DeleteRoleBindings]. use_eq Hbatch. tidy_trace. reflexivity.
  - intros b it Hit Hnamed Hin. apply removeAll_In in Hin.
    destruct Hin as [_ Hnone]. rewrite (Hnone it Hit) in Hnamed. discriminate.
  - intros b Hin Hnone. apply removeAll_In. auto.
Qed.

(** C4. When the delete of every item of the batch succeeds, the handler
    returns no error and the response is the empty confirmation: status 204
    and no body. Nothing about the single items is written; every item was
    requested once from the cluster, in payload order. *)
Theorem full_success_empty_confirmation :
  forall batch,
    decode r = (batch, None) ->
    getProxyKubeClient_ h r = (specClient a, None) ->
    accepted a (items batch) (resources (cluster w)) = true ->
    deleteRoleBindings decode h r w
    = (None,
       mkWorld
         (mkCluster (removeAll (items batch) (resources (cluster w)))
            (received (cluster w) ++ deleteCalls (items batch)))
         (mkWriter (Some 204) NoContent)
         (trace w ++ [CallDecodeAndValidate r; CallGetProxyKubeClient r;
                      CallDeleteRoleBindings batch; CallResponseEmpty])).
Proof.
  intros batch Hdec Hproxy Hacc.
  run_handler. use_eq Hdec. use_eq Hproxy. cbn [specClient DeleteRoleBindings].
  rewrite deleteBatch_deleteItems, deleteItems_accepted by exact Hacc.
  cbn [fst snd cluster writer trace]. tidy_trace. reflexivity.
Qed.

End BulkDelete.

(** ** The binding reader of the spec *)

Lemma NoDup_flat_map {A B : Type} (f : A -> list B) (ks : list A) :
  NoDup ks ->
  (forall k, In k ks -> NoDup (f k)) ->
  (forall k1 k2 x, In k1 ks -> In k2 ks -> In x (f k1) -> In x (f k2) -> k1 = k2) ->
  NoDup (flat_map f ks).
Proof.
  intros Hks Heach Hdisj. induction Hks as [|k ks Hk Hks IH]; cbn.
  - constructor.
  - apply NoDup_app.
    + apply Heach. left. reflexivity.
    + apply IH.
      * intros k' Hk'. apply Heach. right. exact Hk'.
      * intros k1 k2 x H1 H2. apply Hdisj; right; assumption.
    + intros x Hx Hx'. apply in_flat_map in Hx'. destruct Hx' as [k' [Hk' Hxk']].
      assert (k = k') as <-.
      { apply (Hdisj k k' x); [left; reflexivity|right; exact Hk'|exact Hx|exact Hxk']. }
      contradiction.
Qed.

Section BindingReader.

Variable writeJSON :
  list K8sRoleBinding -> ResponseWriter -> option HandlerError * ResponseWriter.
Variable a : Access.

Lemma visibleIn_all (rs : list K8sRoleBinding) :
  visibleIn a "" rs = filter (visible a) rs.
Proof.
  unfold visibleIn. apply filter_ext. intros b. apply andb_true_r.
Qed.

Lemma visibleIn_namespace (ns : string) (rs : list K8sRoleBinding) (b : K8sRoleBinding) :
  ns <> "" ->
  In b (visibleIn a ns rs) <-> In b rs /\ visible a b = true /\ Namespace b = ns.
Proof.
  intros Hns. unfold visibleIn, inFilter. rewrite filter_In, andb_true_iff.
  apply String.eqb_neq in Hns. rewrite Hns. cbn [orb]. rewrite String.eqb_eq.
  tauto.
Qed.

Lemma namespacesOf_In (rs : list K8sRoleBinding) (ns : string) :
  In ns (namespacesOf rs) <-> exists b, In b rs /\ Namespace b = ns.
Proof.
  unfold namespacesOf. rewrite nodup_In, in_map_iff.
  split; intros [b [H1 H2]]; exists b; auto.
Qed.

Lemma namespacesOf_nonempty (rs : list K8sRoleBinding) (ns : string) :
  Forall (fun b => Namespace b <> "") rs -> In ns (namespacesOf rs) -> ns <> "".
Proof.
  intros Hall Hin. apply namespacesOf_In in Hin. destruct Hin as [b [Hb <-]].
  rewrite Forall_forall in Hall. apply Hall. exact Hb.
Qed.

(** The listing with the empty filter is the namespaces' listings put
    together. *)
Lemma visibleIn_all_union (rs : list K8sRoleBinding) :
  wellFormed rs ->
  Permutation (visibleIn a "" rs)
    (flat_map (fun ns => visibleIn a ns rs) (namespacesOf rs)).
Proof.
  intros [Hnodup Hall]. apply NoDup_map_inv in Hnodup.
  apply NoDup_Permutation.
  - apply NoDup_filter. exact Hnodup.
  - apply NoDup_flat_map.
    + apply NoDup_nodup.
    + intros ns _. apply NoDup_filter. exact Hnodup.
    + intros k1 k2 b Hk1 Hk2 H1 H2.
      apply visibleIn_namespace in H1; [|apply (namespacesOf_nonempty Hall Hk1)].
      apply visibleIn_namespace in H2; [|apply (namespacesOf_nonempty Hall Hk2)].
      destruct H1 as [_ [_ <-]], H2 as [_ [_ <-]]. reflexivity.
  - intros b. rewrite visibleIn_all, filter_In, in_flat_map. split.
    + intros [Hb Hv]. exists (Namespace b). split.
      * apply namespacesOf_In. exists b. auto.
      * apply visibleIn_namespace; auto.
        rewrite Forall_forall in Hall. apply Hall. exact Hb.
    + intros [ns [Hns Hb]].
      apply visibleIn_namespace in Hb; [tauto|].
      apply (namespacesOf_nonempty Hall Hns).
Qed.

Variable h : Handler.
Variable r : Request.
Variable w : World.

(** C5. The list handler asks the client for the role bindings with the
    empty namespace filter, and for no other. With the client of the spec
    and no retrieval error, the cluster receives one list request for the
    empty namespace, and the list handed to [response.JSON] as the body of
    the response is every binding the caller may see: it has no duplicates
    and is, up to order, the listings of the single namespaces of the
    cluster put together. *)
Theorem list_is_union_of_namespaces :
  prepareKubeClient_ h r = (specClient a, None) ->
  fetchFailure a (resources (cluster w)) = None ->
  wellFormed (resources (cluster w)) ->
  getAllKubernetesRoleBindings writeJSON h r w
  = (fst (writeJSON (visibleIn a "" (resources (cluster w))) (writer w)),
     mkWorld (receive (ListCall "") (cluster w))
       (snd (writeJSON (visibleIn a "" (resources (cluster w))) (writer w)))
       (trace w ++ [CallPrepareKubeClient r; CallGetRoleBindings "";
                    CallResponseJSON (visibleIn a "" (resources (cluster w)))]))
  /\ NoDup (visibleIn a "" (resources (cluster w)))
  /\ Permutation (visibleIn a "" (resources (cluster w)))
       (flat_map (fun ns => fst (fst (listBindings a ns (cluster w))))
          (namespacesOf (resources (cluster w))))
  /\ (forall b, In b (visibleIn a "" (resources (cluster w)))
                <-> In b (resources (cluster w)) /\ visible a b = true).
Proof.
  intros Hprep Hfetch Hwf. split; [|split; [|split]].
  - run_handler. use_eq Hprep. cbn [specClient GetRoleBindings].
    unfold listBindings. use_eq Hfetch. tidy_trace.
    destruct (writeJSON (visibleIn a "" (resources (cluster w))) (writer w)).
    reflexivity.
  - apply NoDup_filter. destruct Hwf as [Hnodup _].
    apply NoDup_map_inv in Hnodup. exact Hnodup.
  - unfold listBindings. rewrite Hfetch. cbn [fst].
    apply visibleIn_all_union. exact Hwf.
  - intros b. rewrite visibleIn_all, filter_In. tauto.
Qed.

End BindingReader.

(** ** Repeated names in one namespace *)

(** Removing a binding twice leaves what removing it once leaves. *)
Lemma removeBinding_idempotent (ns name : string) (rs : list K8sRoleBinding) :
  removeBinding ns name (removeBinding ns name rs) = removeBinding ns name rs.
Proof.
  unfold removeBinding. induction rs as [|b rs IH]; cbn; [reflexivity|].
  destruct (named ns name b) eqn:E; cbn; [exact IH|].
  rewrite E. cbn. f_equal. exact IH.
Qed.

(** With a client that reports a missing binding as an error, the second
    occurrence of a name aborts the batch. *)
Example repeated_name_strict :
  deleteBatch strictAccess [("team-a", ["view-binding"; "view-binding"])] teamCluster
  = (Some notFound,
     mkCluster (removeBinding "team-a" "view-binding" (resources teamCluster))
       [DeleteCall "team-a" "view-binding"; DeleteCall "team-a" "view-binding"]).
Proof. reflexivity. Qed.

(** With a client that treats a missing binding as deleted, the second
    occurrence changes nothing. *)
Example repeated_name_lenient :
  deleteBatch lenientAccess [("team-a", ["view-binding"; "view-binding"])] teamCluster
  = (None,
     mkCluster (removeBinding "team-a" "view-binding" (resources teamCluster))
       [DeleteCall "team-a" "view-binding"; DeleteCall "team-a" "view-binding"]).
Proof. reflexivity. Qed.

(** ** The properties at concrete requests *)

Lemma teamCluster_wellFormed : wellFormed (resources teamCluster).
Proof.
  split.
  - cbn. repeat constructor; cbn; intuition discriminate.
  - cbn. repeat constructor; discriminate.
Qed.

Lemma invalid_payload_rejected_witness :
  rejects malformed teamRequest = ([], Some malformed)
  /\ deleteRoleBindings (rejects malformed) (handlerWith (specClient strictAccess))
       teamRequest teamWorld
     = (Some (BadRequest "Invalid request payload" (Some malformed)),
        mkWorld teamCluster freshWriter [CallDecodeAndValidate teamRequest]).
Proof.
  split; [reflexivity|].
  exact (proj1 (@invalid_payload_rejected_before_cluster
                  (rejects malformed) (handlerWith (specClient strictAccess))
                  teamRequest teamWorld ([]) (malformed) eq_refl)).
Defined.



Lemma fetch_failure_witness :
  prepareKubeClient_ (handlerWith flakyClient) teamRequest = (flakyClient, None)
  /\ GetRoleBindings flakyClient "" (cluster teamWorld)
     = ((firstn 1 (resources teamCluster), Some (errorString "unexpected EOF")), teamCluster)
  /\ writer (snd (getAllKubernetesRoleBindings writesJSON (handlerWith flakyClient)
                    teamRequest teamWorld)) = freshWriter.
Proof.
  do 2 (split; [reflexivity|]).
  exact (f_equal (fun out => writer (snd out))
           (proj1 (@fetch_failure_is_atomic
                     writesJSON (handlerWith flakyClient) teamRequest teamWorld
                     (flakyClient) (firstn 1 (resources teamCluster))
                     (errorString "unexpected EOF") (teamCluster)
                     eq_refl eq_refl))).
Defined.

Lemma client_failure_witness :
  prepareKubeClient_ (handlerWithout forbidden) teamRequest = (nilClient, Some forbidden)
  /\ decodesTo teamBatch teamRequest = (teamBatch, None)
  /\ getProxyKubeClient_ (handlerWithout forbidden) teamRequest = (nilClient, Some forbidden)
  /\ fst (deleteRoleBindings (decodesTo teamBatch) (handlerWithout forbidden)
            teamRequest teamWorld) = Some forbidden.
Proof.
  do 3 (split; [reflexivity|]).
  exact (proj1 (proj2 (proj2 (@client_failure_reported_differently
                  writesJSON (decodesTo teamBatch) (handlerWithout forbidden) teamRequest teamWorld
                  (teamBatch) (nilClient) (forbidden)
                  (nilClient) (forbidden) eq_refl eq_refl eq_refl)))).
Defined.

Lemma delete_error_witness :
  decodesTo teamBatch teamRequest = (teamBatch, None)
  /\ getProxyKubeClient_ (handlerWith (specClient strictAccess)) teamRequest
     = (specClient strictAccess, None)
  /\ fst (DeleteRoleBindings (specClient strictAccess) teamBatch (cluster teamWorld))
     = Some notFound
  /\ fst (deleteRoleBindings (decodesTo teamBatch) (handlerWith (specClient strictAccess))
            teamRequest teamWorld)
     = Some (InternalServerError "Failed to delete role bindings" (Some notFound)).
Proof.
  do 3 (split; [reflexivity|]).
  exact (f_equal fst
           (proj1 (@delete_error_always_internal
                     (decodesTo teamBatch) (handlerWith (specClient strictAccess))
                     teamRequest teamWorld
                     (teamBatch) (specClient strictAccess) (notFound)
                     (snd (deleteBatch strictAccess teamBatch teamCluster))
                     eq_refl eq_refl eq_refl))).
Defined.

Lemma decoded_batch_witness :
  decodesTo teamBatch teamRequest = (teamBatch, None)
  /\ getProxyKubeClient_ (handlerWith (specClient lenientAccess)) teamRequest
     = (specClient lenientAccess, None)
  /\ cluster (snd (deleteRoleBindings (decodesTo teamBatch)
                     (handlerWith (specClient lenientAccess)) teamRequest teamWorld))
     = snd (deleteBatch lenientAccess teamBatch teamCluster).
Proof.
  do 2 (split; [reflexivity|]).
  exact (proj1 (@decoded_batch_passed_unchanged
                  (decodesTo teamBatch) (handlerWith (specClient lenientAccess))
                  teamRequest teamWorld
                  (teamBatch) (specClient lenientAccess) eq_refl eq_refl)).
Defined.

Lemma first_delete_failure_witness :
  decodesTo teamBatch teamRequest = (teamBatch, None)
  /\ items teamBatch
     = [("team-a", "view-binding"); ("team-b", "admin-binding")]
         ++ ("team-b", "edit-binding") :: [("team-b", "ops-binding")]
  /\ accepted strictAccess [("team-a", "view-binding"); ("team-b", "admin-binding")]
       (resources teamCluster) = true
  /\ refusal strictAccess
       (removeAll [("team-a", "view-binding"); ("team-b", "admin-binding")]
          (resources teamCluster)) "team-b" "edit-binding" = Some notFound
  /\ deleteBatch strictAccess teamBatch teamCluster
     = (Some notFound,
        mkCluster [mkRoleBinding "ops-binding" "team-b" "ops"]
          [DeleteCall "team-a" "view-binding"; DeleteCall "team-b" "admin-binding";
           DeleteCall "team-b" "edit-binding"]).
Proof.
  do 4 (split; [reflexivity|]).
  exact (proj1 (@first_delete_failure_aborts_batch
                  (decodesTo teamBatch) strictAccess
                  (handlerWith (specClient strictAccess)) teamRequest teamWorld
                  (teamBatch)
                  ([("team-a", "view-binding"); ("team-b", "admin-binding")])
                  ("team-b") ("edit-binding")
                  ([("team-b", "ops-binding")]) (notFound)
                  eq_refl eq_refl eq_refl eq_refl eq_refl)).
Defined.

Lemma full_success_witness :
  decodesTo teamBatch teamRequest = (teamBatch, None)
  /\ accepted lenientAccess (items teamBatch) (resources teamCluster) = true
  /\ deleteRoleBindings (decodesTo teamBatch) (handlerWith (specClient lenientAccess))
       teamRequest teamWorld
     = (None,
        mkWorld
          (mkCluster []
             [DeleteCall "team-a" "view-binding"; DeleteCall "team-b" "admin-binding";
              DeleteCall "team-b" "edit-binding"; DeleteCall "team-b" "ops-binding"])
          (mkWriter (Some 204) NoContent)
          [CallDecodeAndValidate teamRequest; CallGetProxyKubeClient teamRequest;
           CallDeleteRoleBindings teamBatch; CallResponseEmpty]).
Proof.
  do 2 (split; [reflexivity|]).
  exact (@full_success_empty_confirmation
           (decodesTo teamBatch) lenientAccess
           (handlerWith (specClient lenientAccess)) teamRequest teamWorld
           (teamBatch) eq_refl eq_refl eq_refl).
Defined.

Lemma list_union_witness :
  prepareKubeClient_ (handlerWith (specClient strictAccess)) teamRequest
  = (specClient strictAccess, None)
  /\ fetchFailure strictAccess (resources (cluster teamWorld)) = None
  /\ wellFormed (resources (cluster teamWorld))
  /\ writer (snd (getAllKubernetesRoleBindings writesJSON (handlerWith (specClient strictAccess))
                    teamRequest teamWorld))
     = mkWriter (Some 200) (JSONContent (resources teamCluster)).
Proof.
  split; [reflexivity|]. split; [reflexivity|]. split; [exact teamCluster_wellFormed|].
  exact (f_equal (fun out => writer (snd out))
           (proj1 (@list_is_union_of_namespaces
                     writesJSON strictAccess (handlerWith (specClient strictAccess))
                     teamRequest teamWorld
                     eq_refl eq_refl teamCluster_wellFormed))).
Defined.

(** * Further properties of the handlers *)

Ltac split_run :=
  cbn [fst snd cluster writer trace]; tidy_trace.

Section ListHandler.

Variable writeJSON :
  list K8sRoleBinding -> ResponseWriter -> option HandlerError * ResponseWriter.
Variable h : Handler.
Variable r : Request.
Variable w : World.

(** X1. Every error the list handler returns is one of three: the internal
    server error (status 500) wrapping the provider's error, whatever status
    that one carried; the internal server error wrapping the error of the
    client's listing; or, when provider and listing both succeeded, the
    error [response.JSON] returned for the client's list, as it is. *)
Theorem list_error_origin :
  forall he,
    fst (getAllKubernetesRoleBindings writeJSON h r w) = Some he ->
    (exists e,
        snd (prepareKubeClient_ h r) = Some e
        /\ he = InternalServerError "unable to prepare kube client. Error: "
                  (Some (asError e)))
    \/ (snd (prepareKubeClient_ h r) = None
        /\ snd (fst (GetRoleBindings (fst (prepareKubeClient_ h r)) "" (cluster w)))
           <> None
        /\ he = InternalServerError "unable to fetch rolebindings. Error: "
                  (snd (fst (GetRoleBindings (fst (prepareKubeClient_ h r)) ""
                               (cluster w)))))
    \/ (snd (prepareKubeClient_ h r) = None
        /\ snd (fst (GetRoleBindings (fst (prepareKubeClient_ h r)) "" (cluster w)))
           = None
        /\ fst (writeJSON
                  (fst (fst (GetRoleBindings (fst (prepareKubeClient_ h r)) ""
                               (cluster w))))
                  (writer w)) = Some he).
Proof.
  intros he. run_handler.
  destruct (prepareKubeClient_ h r) as [cli [e|]]; split_run.
  - intros [= <-]. left. exists e. auto.
  - destruct (GetRoleBindings cli "" (cluster w)) as [[bs [e|]] c']; split_run.
    + intros [= <-]. right. left. repeat split. discriminate.
    + destruct (writeJSON bs (writer w)) as [res rw]. cbn [fst].
      intros ->. right. right. auto.
Qed.

(** X5. The list handler returns no error exactly when the provider, the
    client's listing with the empty filter and [response.JSON] on the
    client's list all report none. *)
Theorem list_succeeds_iff :
  fst (getAllKubernetesRoleBindings writeJSON h r w) = None
  <-> snd (prepareKubeClient_ h r) = None
      /\ snd (fst (GetRoleBindings (fst (prepareKubeClient_ h r)) "" (cluster w))) = None
      /\ fst (writeJSON
                (fst (fst (GetRoleBindings (fst (prepareKubeClient_ h r)) ""
                             (cluster w))))
                (writer w)) = None.
Proof.
  run_handler.
  destruct (prepareKubeClient_ h r) as [cli [e|]]; split_run.
  - split; [discriminate|intros [H _]; discriminate].
  - destruct (GetRoleBindings cli "" (cluster w)) as [[bs [e|]] c']; split_run.
    + split; [discriminate|intros [_ [H _]]; discriminate].
    + destruct (writeJSON bs (writer w)) as [res rw]. cbn [fst]. tauto.
Qed.

(** X6. The list handler logs once when the provider fails and once when
    the client's listing fails, with the context
    [GetAllKubernetesRoleBindings] and the very error that is the cause of
    the one it returns. It logs nothing when both succeed, also when
    [response.JSON] then returns an error. *)
Theorem list_logs_returned_cause :
  match snd (prepareKubeClient_ h r),
        snd (fst (GetRoleBindings (fst (prepareKubeClient_ h r)) "" (cluster w)))
  with
  | None, None =>
      logged (trace (snd (getAllKubernetesRoleBindings writeJSON h r w)))
      = logged (trace w)
  | _, _ =>
      exists he e msg,
        fst (getAllKubernetesRoleBindings writeJSON h r w) = Some he
        /\ Err he = Some e
        /\ logged (trace (snd (getAllKubernetesRoleBindings writeJSON h r w)))
           = logged (trace w) ++ [CallLogError e "GetAllKubernetesRoleBindings" msg]
  end.
Proof.
  unfold logged. run_handler.
  destruct (prepareKubeClient_ h r) as [cli [e|]]; split_run.
  - eexists. eexists. eexists. split; [reflexivity|]. split; [reflexivity|].
    rewrite filter_app. reflexivity.
  - destruct (GetRoleBindings cli "" (cluster w)) as [[bs [e|]] c']; split_run.
    + eexists. eexists. eexists. split; [reflexivity|]. split; [reflexivity|].
      rewrite filter_app. reflexivity.
    + destruct (writeJSON bs (writer w)) as [res rw]. split_run.
      rewrite filter_app. cbn. apply app_nil_r.
Qed.

(** X10. The list handler touches the cluster only by the one listing with
    the empty filter: in every run the cluster afterwards is the one that
    listing leaves when the provider gave a client, and the one the handler
    found when it did not. No delete and no listing of a single namespace
    leaves its mark. *)
Theorem list_touches_cluster_by_listing_only :
  cluster (snd (getAllKubernetesRoleBindings writeJSON h r w))
  = match snd (prepareKubeClient_ h r) with
    | Some _ => cluster w
    | None => snd (GetRoleBindings (fst (prepareKubeClient_ h r)) "" (cluster w))
    end.
Proof.
  run_handler.
  destruct (prepareKubeClient_ h r) as [cli [e|]]; split_run; [reflexivity|].
  destruct (GetRoleBindings cli "" (cluster w)) as [[bs [e|]] c']; split_run;
    [reflexivity|].
  destruct (writeJSON bs (writer w)) as [res rw]. reflexivity.
Qed.

(** X9. When the client's listing leaves the bindings of the cluster as
    they are, so does the list handler, in every run. *)
Theorem list_preserves_resources :
  resources (snd (GetRoleBindings (fst (prepareKubeClient_ h r)) "" (cluster w)))
  = resources (cluster w) ->
  resources (cluster (snd (getAllKubernetesRoleBindings writeJSON h r w))) = resources (cluster w).
Proof.
  run_handler.
  destruct (prepareKubeClient_ h r) as [cli [e|]]; split_run.
  - reflexivity.
  - destruct (GetRoleBindings cli "" (cluster w)) as [[bs [e|]] c']; split_run; auto.
    destruct (writeJSON bs (writer w)) as [res rw]. auto.
Qed.

(** X7. The list handler depends on nothing but the provider
    [prepareKubeClient] and the client's listing with the empty filter: two
    handlers that agree on these give the same result and the same world,
    whatever their other provider, their clients' deletes and their
    listings of single namespaces are. *)
Theorem list_depends_only_on_listing :
  forall h',
    snd (prepareKubeClient_ h r) = snd (prepareKubeClient_ h' r) ->
    GetRoleBindings (fst (prepareKubeClient_ h r)) "" (cluster w)
    = GetRoleBindings (fst (prepareKubeClient_ h' r)) "" (cluster w) ->
    getAllKubernetesRoleBindings writeJSON h r w = getAllKubernetesRoleBindings writeJSON h' r w.
Proof.
  intros h'. run_handler.
  destruct (prepareKubeClient_ h r) as [cli e], (prepareKubeClient_ h' r) as [cli' e'].
  cbn [fst snd]. intros <- Hget. destruct e as [e|]; [reflexivity|].
  split_run. rewrite Hget. reflexivity.
Qed.

End ListHandler.

Section DeleteHandler.

Variable decode : Request -> K8sRoleBindingDeleteRequests * option error.
Variable h : Handler.
Variable r : Request.
Variable w : World.

(** X2. Every error the bulk-delete handler returns is one of three: the
    bad request (400) wrapping the decoder's error; the provider's own
    error, when the payload was accepted; or the internal server error
    (500) wrapping the error of the client's delete of the decoded batch,
    when payload and client were both obtained. *)
Theorem delete_error_origin :
  forall he,
    fst (deleteRoleBindings decode h r w) = Some he ->
    (snd (decode r) <> None
     /\ he = BadRequest "Invalid request payload" (snd (decode r)))
    \/ (snd (decode r) = None
        /\ snd (getProxyKubeClient_ h r) = Some he)
    \/ (snd (decode r) = None
        /\ snd (getProxyKubeClient_ h r) = None
        /\ fst (DeleteRoleBindings (fst (getProxyKubeClient_ h r)) (fst (decode r))
                  (cluster w)) <> None
        /\ he = InternalServerError "Failed to delete role bindings"
                  (fst (DeleteRoleBindings (fst (getProxyKubeClient_ h r))
                          (fst (decode r)) (cluster w)))).
Proof.
  intros he. run_handler.
  destruct (decode r) as [p [e|]]; split_run.
  - intros [= <-]. left. split; [discriminate|reflexivity].
  - destruct (getProxyKubeClient_ h r) as [cli [e|]]; split_run.
    + intros [= <-]. right. left. auto.
    + destruct (DeleteRoleBindings cli p (cluster w)) as [[e|] c']; split_run.
      * intros [= <-]. right. right. repeat split. discriminate.
      * discriminate.
Qed.

(** X3. The bulk-delete handler returns no error exactly when the decoder,
    the provider and the client's delete of the decoded batch all report
    none. *)
Theorem delete_succeeds_iff :
  fst (deleteRoleBindings decode h r w) = None
  <-> snd (decode r) = None
      /\ snd (getProxyKubeClient_ h r) = None
      /\ fst (DeleteRoleBindings (fst (getProxyKubeClient_ h r)) (fst (decode r))
                (cluster w)) = None.
Proof.
  run_handler.
  destruct (decode r) as [p [e|]]; split_run.
  - split; [discriminate|intros [H _]; discriminate].
  - destruct (getProxyKubeClient_ h r) as [cli [e|]]; split_run.
    + split; [discriminate|intros [_ [H _]]; discriminate].
    + destruct (DeleteRoleBindings cli p (cluster w)) as [[e|] c']; split_run.
      * split; [discriminate|intros [_ [_ H]]; discriminate].
      * split; auto.
Qed.

(** X4. The bulk-delete handler writes a response only on success, and then
    the empty one (status 204, no body); with every error it leaves the
    response writer as it found it. *)
Theorem delete_writes_only_on_success :
  writer (snd (deleteRoleBindings decode h r w))
  = match fst (deleteRoleBindings decode h r w) with
    | None => mkWriter (Some 204) NoContent
    | Some _ => writer w
    end.
Proof.
  run_handler.
  destruct (decode r) as [p [e|]]; split_run; [reflexivity|].
  destruct (getProxyKubeClient_ h r) as [cli [e|]]; split_run; [reflexivity|].
  destruct (DeleteRoleBindings cli p (cluster w)) as [[e|] c']; split_run; reflexivity.
Qed.

(** X11. The bulk-delete handler touches the cluster only by the one
    delete of the decoded batch: in every run the cluster afterwards is the
    one that delete leaves when the payload was accepted and the provider
    gave a client, and the one the handler found otherwise. No listing and
    no delete of another batch leaves its mark. *)
Theorem delete_touches_cluster_by_delete_only :
  cluster (snd (deleteRoleBindings decode h r w))
  = match snd (decode r), snd (getProxyKubeClient_ h r) with
    | None, None =>
        snd (DeleteRoleBindings (fst (getProxyKubeClient_ h r)) (fst (decode r))
               (cluster w))
    | _, _ => cluster w
    end.
Proof.
  run_handler.
  destruct (decode r) as [p [e|]]; split_run; [reflexivity|].
  destruct (getProxyKubeClient_ h r) as [cli [e|]]; split_run; [reflexivity|].
  destruct (DeleteRoleBindings cli p (cluster w)) as [[e|] c']; reflexivity.
Qed.

(** X8. The bulk-delete handler depends on nothing but the decoder, the
    provider [getProxyKubeClient] and the client's delete of the decoded
    batch: two handlers that agree on these give the same result and the
    same world, whatever their other provider and their clients' listings
    are. *)
Theorem delete_depends_only_on_delete :
  forall h',
    snd (getProxyKubeClient_ h r) = snd (getProxyKubeClient_ h' r) ->
    DeleteRoleBindings (fst (getProxyKubeClient_ h r)) (fst (decode r)) (cluster w)
    = DeleteRoleBindings (fst (getProxyKubeClient_ h' r)) (fst (decode r)) (cluster w) ->
    deleteRoleBindings decode h r w = deleteRoleBindings decode h' r w.
Proof.
  intros h'. run_handler.
  destruct (decode r) as [p [e|]]; split_run; [reflexivity|].
  destruct (getProxyKubeClient_ h r) as [cli e], (getProxyKubeClient_ h' r) as [cli' e'].
  cbn [fst snd]. intros <- Hdel. destruct e as [e|]; [reflexivity|].
  split_run. rewrite Hdel. reflexivity.
Qed.

End DeleteHandler.

(** ** The further properties at concrete requests *)

Lemma list_error_origin_witness :
  fst (getAllKubernetesRoleBindings failsJSON (handlerWith (specClient strictAccess))
         teamRequest teamWorld)
  = Some (InternalServerError "Unable to write JSON response"
            (Some (errorString "json: unsupported value")))
  /\ snd (prepareKubeClient_ (handlerWith (specClient strictAccess)) teamRequest) = None.
Proof.
  split; [reflexivity|].
  destruct (@list_error_origin
              failsJSON (handlerWith (specClient strictAccess)) teamRequest teamWorld
              (InternalServerError "Unable to write JSON response"
                 (Some (errorString "json: unsupported value")))
              eq_refl)
    as [[e [Hprov _]]|[[Hnone _]|[Hnone _]]].
  - discriminate Hprov.
  - exact Hnone.
  - exact Hnone.
Defined.

Lemma delete_error_origin_witness :
  fst (deleteRoleBindings (decodesTo teamBatch) (handlerWithout forbidden)
         teamRequest teamWorld) = Some forbidden
  /\ snd (getProxyKubeClient_ (handlerWithout forbidden) teamRequest) = Some forbidden.
Proof.
  split; [reflexivity|].
  destruct (@delete_error_origin
              (decodesTo teamBatch) (handlerWithout forbidden) teamRequest teamWorld
              forbidden eq_refl)
    as [[Hbad _]|[[_ Hprov]|[_ [Hnone _]]]].
  - exfalso. apply Hbad. reflexivity.
  - exact Hprov.
  - discriminate Hnone.
Defined.

Lemma list_depends_witness :
  snd (prepareKubeClient_ (handlerWith (specClient strictAccess)) teamRequest)
  = snd (prepareKubeClient_ (listOnlyHandler (specClient lenientAccess) forbidden)
           teamRequest)
  /\ GetRoleBindings
       (fst (prepareKubeClient_ (handlerWith (specClient strictAccess)) teamRequest))
       "" (cluster teamWorld)
     = GetRoleBindings
         (fst (prepareKubeClient_ (listOnlyHandler (specClient lenientAccess) forbidden)
                 teamRequest))
         "" (cluster teamWorld)
  /\ getAllKubernetesRoleBindings writesJSON (handlerWith (specClient strictAccess))
       teamRequest teamWorld
     = getAllKubernetesRoleBindings writesJSON (listOnlyHandler (specClient lenientAccess) forbidden)
         teamRequest teamWorld.
Proof.
  do 2 (split; [reflexivity|]).
  exact (@list_depends_only_on_listing
           writesJSON (handlerWith (specClient strictAccess)) teamRequest teamWorld
           (listOnlyHandler (specClient lenientAccess) forbidden)
           eq_refl eq_refl).
Defined.

Lemma delete_depends_witness :
  snd (getProxyKubeClient_ (handlerWith (specClient lenientAccess)) teamRequest)
  = snd (getProxyKubeClient_ (deleteOnlyHandler (specClient brokenAccess) forbidden)
           teamRequest)
  /\ DeleteRoleBindings
       (fst (getProxyKubeClient_ (handlerWith (specClient lenientAccess)) teamRequest))
       (fst (decodesTo teamBatch teamRequest)) (cluster teamWorld)
     = DeleteRoleBindings
         (fst (getProxyKubeClient_ (deleteOnlyHandler (specClient brokenAccess) forbidden)
                 teamRequest))
         (fst (decodesTo teamBatch teamRequest)) (cluster teamWorld)
  /\ deleteRoleBindings (decodesTo teamBatch) (handlerWith (specClient lenientAccess))
       teamRequest teamWorld
     = deleteRoleBindings (decodesTo teamBatch)
         (deleteOnlyHandler (specClient brokenAccess) forbidden) teamRequest teamWorld.
Proof.
  do 2 (split; [reflexivity|]).
  exact (@delete_depends_only_on_delete
           (decodesTo teamBatch) (handlerWith (specClient lenientAccess))
           teamRequest teamWorld
           (deleteOnlyHandler (specClient brokenAccess) forbidden)
           eq_refl eq_refl).
Defined.

Lemma list_preserves_witness :
  resources (snd (GetRoleBindings
                    (fst (prepareKubeClient_ (handlerWith (specClient strictAccess))
                            teamRequest))
                    "" (cluster teamWorld)))
  = resources (cluster teamWorld)
  /\ resources (cluster (snd (getAllKubernetesRoleBindings writesJSON
                               (handlerWith (specClient strictAccess))
                               teamRequest teamWorld)))
     = resources (cluster teamWorld).
Proof.
  split; [reflexivity|].
  exact (@list_preserves_resources
           writesJSON (handlerWith (specClient strictAccess)) teamRequest teamWorld eq_refl).
Defined.
